(** * sdi_pipeline: the alignment dispatcher, the catalog aligner and the combiner

    A shallow embedding of [align/align.py] and [combine/combine.py].

    Python values become inductive types, exceptions become an error type,
    and every call that leaves the two modules (the conversion helper, the
    reference selector, the registration libraries, numpy's median) is
    recorded in a trace, so that a statement such as "no backend is invoked"
    can be read off the result of a run. *)

From Stdlib Require Import List String Ascii Bool Arith ZArith QArith Lia.
From Stdlib Require Import Lqa Permutation.
Import ListNotations.
Open Scope string_scope.
Open Scope list_scope.

Set Implicit Arguments.

(** ** Exceptions *)

(** The exception classes the two modules raise or catch.  [LibraryError]
    stands for whatever an external library raises on its own account. *)
Inductive exn : Type :=
| NameError (name : string)
| TypeError (msg : string)
| ValueError (msg : string)
| IndexError (msg : string)
| NotImplementedError (msg : string)
| LibraryError (msg : string).

(** ** Calls that leave the module *)

Inductive callee : Type :=
| ToNp
| RefImage
| AstroalignRegister
| RegisterTranslation
| Fftn
| FourierShift
| Ifftn
| Chi2Shift
| Shiftnd
| ImregSimilarity
| FindTransform
| NpMedian.

(** The alignment backends, as opposed to the conversion helper, the
    reference selector and the median. *)
Definition is_backend (c : callee) : bool :=
  match c with
  | ToNp | RefImage | NpMedian => false
  | _ => true
  end.

Definition callee_eqb (c d : callee) : bool :=
  match c, d with
  | ToNp, ToNp | RefImage, RefImage | AstroalignRegister, AstroalignRegister
  | RegisterTranslation, RegisterTranslation | Fftn, Fftn
  | FourierShift, FourierShift | Ifftn, Ifftn | Chi2Shift, Chi2Shift
  | Shiftnd, Shiftnd | ImregSimilarity, ImregSimilarity
  | FindTransform, FindTransform | NpMedian, NpMedian => true
  | _, _ => false
  end.

Definition trace := list callee.

Definition invoked (c : callee) (t : trace) : bool := existsb (callee_eqb c) t.

(** ** Runs: a trace of calls and either an exception or a value *)

Definition run (A : Type) : Type := (trace * (exn + A))%type.

Definition ret {A} (a : A) : run A := ([], inr a).
Definition raise {A} (e : exn) : run A := ([], inl e).

Definition bind {A B} (m : run A) (k : A -> run B) : run B :=
  match m with
  | (t, inl e) => (t, inl e)
  | (t, inr a) => let (t', r) := k a in (t ++ t', r)
  end.

Notation "x <- m ;; k" := (bind m (fun x => k))
  (at level 61, m at next level, right associativity).
Notation "m ;;; k" := (bind m (fun _ => k))
  (at level 61, right associativity).

(** A call to an external routine [c] whose outcome is [r]. *)
Definition call {A} (c : callee) (r : exn + A) : run A := ([c], r).

(** [try: m except NameError: h]. *)
Definition except_NameError {A} (m : run A) (h : run A) : run A :=
  match m with
  | (t, inl (NameError _)) => let (t', r) := h in (t ++ t', r)
  | other => other
  end.

(** A [for] loop that appends one result per element and stops at the
    first exception. *)
Fixpoint for_each {A B} (body : A -> run B) (l : list A) : run (list B) :=
  match l with
  | [] => ret []
  | x :: rest =>
      y <- body x ;;
      ys <- for_each body rest ;;
      ret (y :: ys)
  end.

Definition result_of {A} (m : run A) : exn + A := snd m.
Definition trace_of {A} (m : run A) : trace := fst m.

(** ** [str.format] with positional [{}] fields *)

Fixpoint format (template : string) (args : list string) : string :=
  match template with
  | EmptyString => EmptyString
  | String "{" (String "}" rest) =>
      match args with
      | a :: args' => (a ++ format rest args')%string
      | [] => String "{" (String "}" (format rest []))
      end
  | String c rest => String c (format rest args)
  end.

Fixpoint contains (needle hay : string) : bool :=
  match hay with
  | EmptyString => String.eqb needle EmptyString
  | String _ rest => String.prefix needle hay || contains needle rest
  end.

(** ** Values *)

(** A pixel array: rows of pixels, every row of the same length.  Pixels
    are exact rationals. *)
Definition ndarray : Type := list (list Q).

(** A FITS header: keyword/value cards. *)
Definition header : Type := list (string * string).

(** What a caller can pass where an image is expected: a bare array, an
    HDU (array with header), or an object of some other type. *)
Inductive value : Type :=
| Array (a : ndarray)
| HDU (data : ndarray) (hdr : header)
| Other (type_name : string).

(** [source_s] and the return value of [align]: one image or a list. *)
Inductive image_s : Type :=
| One (v : value)
| Many (l : list value).

(** Objects a module-level name can be bound to. *)
Inductive pyobj : Type :=
| PArray (a : ndarray)
| PStr (s : string)
| PImported (qualified_name : string)
| PFunction (name : string).

(** ** Module load: the optional imports of align.py *)

Definition UNABLE : string :=
  "Unable to find {} module(s); {} alignment method is disabled.".

Definition DISABLED : string :=
  "Alignment method {} is disabled because the {} module(s) is/are not installed.".

(** Which optional packages the interpreter can import. *)
Record site : Type := {
  has_astroalign : bool;
  has_skimage : bool;
  has_scipy : bool;
  has_image_registration : bool;
  has_imreg_dft : bool
}.

(** The module after its top-level statements ran: the global names that
    are bound, each with the object it names, and the lines printed
    meanwhile. *)
Record module_state : Type := {
  globals : list (string * pyobj);
  stdout : list string
}.

Definition bind_name (n : string) (m : module_state) : module_state :=
  {| globals := globals m ++ [(n, PImported n)]; stdout := stdout m |}.

Definition print (line : string) (m : module_state) : module_state :=
  {| globals := globals m; stdout := stdout m ++ [line] |}.

(** Lines 8-13, 15, 40, 43 and 109: the names bound whatever is installed. *)
Definition unconditional_globals : list (string * pyobj) :=
  [("np", PImported "numpy"); ("to_np", PImported "common.to_np");
   ("HDU_TYPES", PImported "common.HDU_TYPES");
   ("PrimaryHDU", PImported "astropy.io.fits.PrimaryHDU");
   ("ref_image", PImported "ref_image.ref_image");
   ("Source", PImported "sources.Source");
   ("UNABLE", PStr UNABLE); ("DISABLED", PStr DISABLED);
   ("align", PFunction "align"); ("sources", PFunction "sources")].

(** Lines 17-37: each [try] block binds names until an import fails, and
    the handler prints the notice. *)
Definition import_module (s : site) : module_state :=
  let m0 := {| globals := unconditional_globals; stdout := [] |} in
  let m1 :=
    if has_astroalign s then bind_name "astroalign" m0
    else print (format UNABLE ["astroalign"; "astroalign"]) m0 in
  let m2 :=
    if has_skimage s then
      let m := bind_name "register_translation" m1 in
      if has_scipy s then bind_name "fourier_shift" m
      else print (format UNABLE ["skimage or scipy"; "skimage"]) m
    else print (format UNABLE ["skimage or scipy"; "skimage"]) m1 in
  let m3 :=
    if has_image_registration s then
      bind_name "fft_tools" (bind_name "chi2_shift" m2)
    else print (format UNABLE ["image_registration"; "chi2"]) m2 in
  if has_imreg_dft s then bind_name "imreg_dft" m3
  else print (format UNABLE ["imreg_dft"; "imreg"]) m3.

Fixpoint find_global (g : list (string * pyobj)) (n : string) : option pyobj :=
  match g with
  | [] => None
  | (k, o) :: rest => if String.eqb n k then Some o else find_global rest n
  end.

(** Reading a global name: [NameError] when it is not bound. *)
Definition lookup (g : list (string * pyobj)) (n : string) : run pyobj :=
  match find_global g n with
  | Some o => ret o
  | None => raise (NameError n)
  end.

Definition everything_installed : site :=
  {| has_astroalign := true; has_skimage := true; has_scipy := true;
     has_image_registration := true; has_imreg_dft := true |}.

(** ** External collaborators *)

(** The routines of other packages the two modules call.  Each library
    entry point may raise on its own account.  [spectrum] is a
    Fourier-domain array and [transform] the object the point matcher
    returns; both are opaque here.  [to_np_default] is the message
    [to_np] uses when the caller passes none, and [apply_transform] is
    what [Source.transform] does to a coordinate pair. *)
Record externals (spectrum transform : Type) : Type := {
  to_np_default : string;
  ref_image : list value -> exn + value;
  astroalign_register : ndarray -> ndarray -> exn + ndarray;
  register_translation : ndarray -> ndarray -> Z -> exn + list Q;
  fftn : ndarray -> spectrum;
  fourier_shift : spectrum -> list Q -> exn + spectrum;
  ifftn : spectrum -> ndarray;
  chi2_shift : ndarray -> ndarray -> exn + (Q * Q * Q * Q);
  shiftnd : pyobj -> Q * Q -> exn + ndarray;
  imreg_similarity : ndarray -> ndarray -> exn + ndarray;
  find_transform :
    list (Q * Q) -> list (Q * Q) ->
    exn + (transform * (list (Q * Q) * list (Q * Q)));
  apply_transform : transform -> Q * Q -> Q * Q
}.

(** Modelled from the spec: [common.to_np], which is not among the sources.
    It converts an image carrier or a plain array to a plain array and
    raises [TypeError] with the given message, the actual type
    interpolated, on anything else. *)
Definition to_np (v : value) (err_msg : string) : run ndarray :=
  call ToNp
    match v with
    | Array a => inr a
    | HDU a _ => inr a
    | Other ty => inl (TypeError (format err_msg [ty]))
    end.

(** ** align/align.py: [align] *)

Section Align.
Context {spectrum transform : Type}.
Variable g : list (string * pyobj).
Variable lib : externals spectrum transform.

(** Lines 76-100: the dispatch on [method]. *)
Definition dispatch (method : string) (np_ref np_src : ndarray) : run ndarray :=
  if method =? "astroalign" then
    except_NameError
      (lookup g "astroalign" ;;;
       call AstroalignRegister (astroalign_register lib np_src np_ref))
      (raise (ValueError (format DISABLED [method; "astroalign"])))
  else if method =? "skimage" then
    except_NameError
      (lookup g "register_translation" ;;;
       shift <- call RegisterTranslation
                  (register_translation lib np_ref np_src 100) ;;
       lookup g "fourier_shift" ;;;
       f <- call Fftn (inr (fftn lib np_src)) ;;
       output_fft <- call FourierShift (fourier_shift lib f shift) ;;
       call Ifftn (inr (ifftn lib output_fft)))
      (raise (ValueError (format DISABLED [method; "scipy or numpy"])))
  else if method =? "chi2" then
    except_NameError
      (lookup g "chi2_shift" ;;;
       r <- call Chi2Shift (chi2_shift lib np_ref np_src) ;;
       let '(dx, dy, _, _) := r in
       lookup g "fft_tools" ;;;
       data <- lookup g "data" ;;
       call Shiftnd (shiftnd lib data (- dx, - dy)%Q))
      (raise (ValueError (format DISABLED [method; "image_registration"])))
  else if method =? "imreg" then
    except_NameError
      (lookup g "imreg_dft" ;;;
       call ImregSimilarity (imreg_similarity lib np_ref np_src))
      (raise (ValueError (format DISABLED [method; "imreg_dft"])))
  else
    raise (ValueError (format "Unexpected alignment method {}!" [method])).

(** Lines 72-104: the body of the loop, for one source. *)
Definition align_source (method : string) (np_ref : ndarray) (source : value)
  : run value :=
  np_src <- to_np source
    "Cannot align unexpected type {}; expected numpy array or FITS HDU" ;;
  output <- dispatch method np_ref np_src ;;
  ret match source with
      | HDU _ hdr => HDU output hdr
      | _ => Array output
      end.

(** Lines 60-65. *)
Definition as_list (source_s : image_s) : list value :=
  match source_s with
  | Many l => l
  | One v => [v]
  end.

(** Lines 67-69. *)
Definition reference_array (sources : list value) (reference : option value)
  : run ndarray :=
  r <- match reference with
       | None => call RefImage (ref_image lib sources)
       | Some r => ret r
       end ;;
  to_np r
    "Cannot align to unexpected type {}; expected numpy array or FITS HDU".

Definition align (source_s : image_s) (reference : option value)
  (method : string) : run image_s :=
  let sources := as_list source_s in
  np_ref <- reference_array sources reference ;;
  outputs <- for_each (align_source method np_ref) sources ;;
  match source_s with
  | Many _ => ret (Many outputs)
  | One _ =>
      match outputs with
      | o :: _ => ret (One o)
      | [] => raise (IndexError "list index out of range")
      end
  end.

(** What the spec asks of the chi2 backend: shift the current source
    image by the negated offset. *)
Definition chi2_as_specified (np_ref np_src : ndarray) : run ndarray :=
  r <- call Chi2Shift (chi2_shift lib np_ref np_src) ;;
  let '(dx, dy, _, _) := r in
  call Shiftnd (shiftnd lib (PArray np_src) (- dx, - dy)%Q).

End Align.

(** ** align/align.py: [sources], the catalog aligner *)

(** One row of a catalog table: the two coordinate columns and the rest. *)
Record row : Type := {
  X : Q;
  Y : Q;
  other_columns : list (string * Q)
}.

(** The column descriptor of a table ([cat.data.dtype]). *)
Definition dtype : Type := list (string * string).

Record catalog : Type := {
  cat_dtype : dtype;
  cat_data : list row
}.

(** Modelled from the spec: [sources.Source], which is not among the
    sources.  A point record built from a raw row and a column descriptor,
    keeping every field, with an in-place transform of its coordinates. *)
Record Source : Type := {
  source_row : row;
  source_dtype : dtype
}.

Definition Source_new (r : row) (d : dtype) : Source :=
  {| source_row := r; source_dtype := d |}.

Definition xy (r : row) : Q * Q := (X r, Y r).

Section Catalogs.
Context {spectrum transform : Type}.
Variable g : list (string * pyobj).
Variable lib : externals spectrum transform.

(** Modelled from the spec: [Source.transform], which is not among the
    sources.  It moves the coordinates and keeps the labels. *)
Definition Source_transform (T : transform) (s : Source) : Source :=
  let p := apply_transform lib T (xy (source_row s)) in
  {| source_row := {| X := fst p; Y := snd p;
                      other_columns := other_columns (source_row s) |};
     source_dtype := source_dtype s |}.

(** Lines 125-131: the body of the outer loop, for one catalog. *)
Definition align_catalog (npref : list (Q * Q)) (cat : catalog)
  : run (list Source) :=
  let npc := map xy (cat_data cat) in
  lookup g "astroalign" ;;;
  r <- call FindTransform (find_transform lib npc npref) ;;
  let T := fst r in
  for_each
    (fun source =>
       let s := Source_new source (cat_dtype cat) in
       ret (Source_transform T s))
    (cat_data cat).

(** Lines 121-122. *)
Definition default_reference (catalogs : list catalog)
  (reference : option catalog) : run catalog :=
  match reference with
  | Some r => ret r
  | None =>
      match catalogs with
      | c :: _ => ret c
      | [] => raise (IndexError "list index out of range")
      end
  end.

Definition sources (catalogs : list catalog) (reference : option catalog)
  : run (list (list Source)) :=
  reference <- default_reference catalogs reference ;;
  let npref := map xy (cat_data reference) in
  for_each (align_catalog npref) catalogs.

End Catalogs.

(** ** numpy's median along the first axis *)

(** [np.median(data, axis=0)] as numpy documents it: the arrays are
    stacked, which needs them to have one shape, and each output pixel is
    the median of the pixels at that position: the middle value of the
    sorted samples when their number is odd, the average of the two middle
    values when it is even.  The median of no sample at all is NaN. *)

Fixpoint insert_sorted (x : Q) (l : list Q) : list Q :=
  match l with
  | [] => [x]
  | y :: rest => if Qle_bool x y then x :: l else y :: insert_sorted x rest
  end.

Definition sort (l : list Q) : list Q := fold_right insert_sorted [] l.

Definition median (samples : list Q) : Q :=
  let s := sort samples in
  let n := List.length s in
  if Nat.even n
  then (nth (n / 2 - 1) s 0 + nth (n / 2) s 0) / 2
  else nth (n / 2) s 0.

Fixpoint zip_cons {A} (heads : list A) (tails : list (list A)) : list (list A) :=
  match heads, tails with
  | h :: hs, t :: ts => (h :: t) :: zip_cons hs ts
  | _, _ => []
  end.

(** Turns [n] lists of length [m] into [m] lists of length [n]. *)
Fixpoint transpose {A} (l : list (list A)) : list (list A) :=
  match l with
  | [] => []
  | r :: rest =>
      match rest with
      | [] => map (fun x => [x]) r
      | _ => zip_cons r (transpose rest)
      end
  end.

Definition shape (a : ndarray) : list nat := map (@List.length Q) a.

Definition same_shape (a b : ndarray) : bool :=
  if list_eq_dec Nat.eq_dec (shape a) (shape b) then true else false.

Inductive median_value : Type :=
| NaN
| Pixels (a : ndarray).

Definition median_axis0 (data : list ndarray) : ndarray :=
  map (fun rows => map median (transpose rows)) (transpose data).

Definition np_median (data : list ndarray) : exn + median_value :=
  match data with
  | [] => inr NaN
  | a :: rest =>
      if forallb (same_shape a) rest
      then inr (Pixels (median_axis0 data))
      else inl (ValueError "setting an array element with a sequence")
  end.

(** ** combine/combine.py: [combine] *)

Definition newline : string := String (ascii_of_nat 10) EmptyString.

(** The message of lines 28-29, a triple-quoted literal with a line
    break in it. *)
Definition unimplemented : string :=
  ("Combine method other than numpy (swarp) " ++ newline
   ++ "        is unimplemented.")%string.

Section Combine.
Context {spectrum transform : Type}.
Variable lib : externals spectrum transform.

Definition combine (hdu_s : image_s) (method : string) : run median_value :=
  let hdu := as_list hdu_s in
  if negb (method =? "numpy") then
    raise (NotImplementedError unimplemented)
  else
    data <- for_each (fun i => to_np i (to_np_default lib)) hdu ;;
    call NpMedian (np_median data).

End Combine.

Definition pixel (a : ndarray) (i j : nat) : option Q :=
  match nth_error a i with
  | Some r => nth_error r j
  | None => None
  end.

(** ** Predicates used in the statements *)

(** The array an image carrier holds, if the value is one. *)
Definition carried (v : value) : option ndarray :=
  match v with
  | Array a => Some a
  | HDU a _ => Some a
  | Other _ => None
  end.



(** The records of a catalog, each moved by [T], in the order of the rows. *)
Definition moved {spectrum transform} (lib : externals spectrum transform)
  (T : transform) (cat : catalog) : list Source :=
  map (fun r => Source_transform lib T (Source_new r (cat_dtype cat)))
      (cat_data cat).

(** The package whose import binds the first name the branch of [method]
    reads. *)
Definition provider_installed (s : site) (method : string) : bool :=
  if method =? "astroalign" then has_astroalign s
  else if method =? "skimage" then has_skimage s
  else if method =? "chi2" then has_image_registration s
  else if method =? "imreg" then has_imreg_dft s
  else true.

(** The module name each branch puts in its [DISABLED] message. *)
Definition named_dependency (method : string) : string :=
  if method =? "astroalign" then "astroalign"
  else if method =? "skimage" then "scipy or numpy"
  else if method =? "chi2" then "image_registration"
  else "imreg_dft".

Definition no_backend_call (t : trace) : bool :=
  forallb (fun c => negb (is_backend c)) t.



(** ** A concrete set of collaborators, for running the code *)

(** Libraries that find no offset: registration returns the source as it
    is, the Fourier transform is the identity, the point matcher returns
    a zero translation. *)
Definition still_lib : externals ndarray (Q * Q) :=
  {| to_np_default := "Unexpected type {}";
     ref_image := fun l =>
       match l with
       | v :: _ => inr v
       | [] => inl (LibraryError "no image")
       end;
     astroalign_register := fun src _ => inr src;
     register_translation := fun _ _ _ => inr [0; 0];
     fftn := fun a => a;
     fourier_shift := fun f _ => inr f;
     ifftn := fun f => f;
     chi2_shift := fun _ _ => inr (0, 0, 0, 0);
     shiftnd := fun o _ =>
       match o with
       | PArray a => inr a
       | _ => inl (LibraryError "not an array")
       end;
     imreg_similarity := fun _ src => inr src;
     find_transform := fun npc npref => inr ((0, 0), (npc, npref));
     apply_transform := fun T p => (fst p + fst T, snd p + snd T) |}.

Definition image_A : ndarray := [[1; 2]; [3; 4]].
Definition image_B : ndarray := [[3; 4]; [5; 6]].
Definition card : header := [("OBJECT", "M31")].

Definition without_skimage : site :=
  {| has_astroalign := true; has_skimage := false; has_scipy := true;
     has_image_registration := true; has_imreg_dft := true |}.

Definition nothing_installed : site :=
  {| has_astroalign := false; has_skimage := false; has_scipy := false;
     has_image_registration := false; has_imreg_dft := false |}.

Definition star (x y : Q) : row := {| X := x; Y := y; other_columns := [] |}.

Definition field_1 : catalog :=
  {| cat_dtype := [("X", "f8"); ("Y", "f8")];
     cat_data := [star 1 2; star 3 4; star 5 6] |}.

Definition field_2 : catalog :=
  {| cat_dtype := [("X", "f8"); ("Y", "f8")];
     cat_data := [star 7 8] |}.


(** An image without its header. *)
Definition bare (v : value) : value :=
  match v with
  | HDU a _ => Array a
  | _ => v
  end.

(** The [j]-th element of every list of [l], if each has one. *)
Fixpoint column {A} (j : nat) (l : list (list A)) : option (list A) :=
  match l with
  | [] => Some []
  | r :: rest =>
      match nth_error r j, column j rest with
      | Some x, Some xs => Some (x :: xs)
      | _, _ => None
      end
  end.

(** The pixels the arrays of [data] have at position (i, j), in the order
    of [data], if each array has one there. *)
Fixpoint pixels_at (i j : nat) (data : list ndarray) : option (list Q) :=
  match data with
  | [] => Some []
  | a :: rest =>
      match pixel a i j, pixels_at i j rest with
      | Some x, Some xs => Some (x :: xs)
      | _, _ => None
      end
  end.

Definition bare_s (hdu_s : image_s) : image_s :=
  match hdu_s with
  | One v => One (bare v)
  | Many l => Many (map bare l)
  end.

Definition without_scipy : site :=
  {| has_astroalign := true; has_skimage := true; has_scipy := false;
     has_image_registration := true; has_imreg_dft := true |}.

(** Libraries that give up: registration reports an undefined name of its
    own, and the point matcher wants three points at least. *)
Definition strict_lib : externals ndarray (Q * Q) :=
  {| to_np_default := "Unexpected type {}";
     ref_image := fun _ => inl (LibraryError "no image stands out");
     astroalign_register := fun _ _ => inl (NameError "_ransac");
     register_translation := fun _ _ _ => inr [0; 0];
     fftn := fun a => a;
     fourier_shift := fun f _ => inr f;
     ifftn := fun f => f;
     chi2_shift := fun _ _ => inr (0, 0, 0, 0);
     shiftnd := fun _ _ => inl (LibraryError "not an array");
     imreg_similarity := fun _ _ => inl (LibraryError "no overlap");
     find_transform := fun npc npref =>
       if (List.length npc <? 3)%nat
       then inl (LibraryError "fewer than 3 points")
       else inr ((0, 0), (npc, npref));
     apply_transform := fun T p => (fst p + fst T, snd p + snd T) |}.

(** * Theorems *)

(** ** Runs and loops *)

Lemma bind_value {A B} (m : run A) (k : A -> run B) t a :
  m = (t, inr a) -> bind m k = (t ++ fst (k a), snd (k a)).
Proof.
  intros ->. unfold bind. destruct (k a); reflexivity.
Qed.

Lemma bind_error {A B} (m : run A) (k : A -> run B) t e :
  m = (t, inl e) -> bind m k = (t, inl e).
Proof.
  intros ->. reflexivity.
Qed.

Lemma bind_value_inv {A B} (m : run A) (k : A -> run B) t b :
  bind m k = (t, inr b) ->
  exists t0 a t1, m = (t0, inr a) /\ k a = (t1, inr b) /\ t = t0 ++ t1.
Proof.
  destruct m as [t0 [e | a]]; simpl; [discriminate |].
  destruct (k a) as [t1 r] eqn:Hk. intros H. inversion H; subst.
  exists t0, a, t1. auto.
Qed.

Lemma for_each_values {A B} (body : A -> run B) l t ys :
  for_each body l = (t, inr ys) ->
  Forall2 (fun x y => exists t', body x = (t', inr y)) l ys.
Proof.
  revert t ys. induction l as [| x rest IH]; simpl; intros t ys H.
  - inversion H. constructor.
  - apply bind_value_inv in H. destruct H as (t0 & y & t1 & Hx & H & _).
    apply bind_value_inv in H. destruct H as (t2 & ys' & t3 & Hrest & H & _).
    inversion H; subst. constructor; eauto.
Qed.

Lemma for_each_returns {A B} (body : A -> run B) l ys :
  Forall2 (fun x y => exists t', body x = (t', inr y)) l ys ->
  exists t, for_each body l = (t, inr ys).
Proof.
  induction 1 as [| x y l ys [t' Hx] _ [t IH]]; simpl.
  - exists []. reflexivity.
  - rewrite (bind_value _ Hx), IH. simpl. eauto.
Qed.

Lemma for_each_stops {A B} (body : A -> run B) x rest t e :
  body x = (t, inl e) -> for_each body (x :: rest) = (t, inl e).
Proof.
  intros H. simpl. rewrite H. reflexivity.
Qed.

Lemma for_each_pure {A B} (f : A -> B) l :
  for_each (fun x => ret (f x)) l = ret (map f l).
Proof.
  induction l as [| x rest IH]; simpl; [reflexivity |].
  rewrite IH. reflexivity.
Qed.

Lemma Forall2_pointwise {A B} (R : A -> B -> Prop) l l' :
  Forall2 R l l' <->
  List.length l' = List.length l /\
  forall i x, nth_error l i = Some x ->
              exists y, nth_error l' i = Some y /\ R x y.
Proof.
  split.
  - induction 1 as [| x y l l' Hxy _ [IHlen IH]]; split; simpl; auto.
    + intros [| i] z; discriminate.
    + intros [| i] z Hz; simpl in *.
      * inversion Hz; subst. eauto.
      * apply IH. assumption.
  - revert l'. induction l as [| x l IH]; intros [| y l'] [Hlen H];
      simpl in *; try discriminate; constructor.
    + destruct (H 0%nat x eq_refl) as (y' & Hy & Hr).
      inversion Hy; subst. assumption.
    + apply IH. split; [lia |].
      intros i z Hz. apply (H (S i) z Hz).
Qed.

(** ** The median of one and of two samples *)









Lemma to_np_carried v msg a :
  carried v = Some a -> to_np v msg = ([ToNp], inr a).
Proof.
  destruct v; simpl; intros H; inversion H; reflexivity.
Qed.

(** ** combine *)

Section CombineFacts.
Context {spectrum transform : Type}.
Variable lib : externals spectrum transform.

Lemma combine_numpy (hdu_s : image_s) :
  combine lib hdu_s "numpy" =
  (data <- for_each (fun i => to_np i (to_np_default lib)) (as_list hdu_s) ;;
   call NpMedian (np_median data)).
Proof. reflexivity. Qed.


(** C7.  Whatever the images are, a method other than "numpy" makes
    [combine] raise NotImplementedError at once: the trace is empty, so
    no image was converted and no median was taken, and no array comes
    back. *)
Theorem combine_other_method_unimplemented (hdu_s : image_s) (method : string) :
  method <> "numpy" ->
  combine lib hdu_s method = ([], inl (NotImplementedError unimplemented)).
Proof.
  intros H. unfold combine.
  apply String.eqb_neq in H. rewrite H. reflexivity.
Qed.



End CombineFacts.

Lemma combine_other_method_unimplemented_witness :
  combine still_lib (Many [Array image_A; Array image_B]) "xyz"
  = ([], inl (NotImplementedError unimplemented)).
Proof.
  apply combine_other_method_unimplemented. discriminate.
Defined.



(** ** What the module binds at load time *)

Lemma data_never_bound (s : site) :
  find_global (globals (import_module s)) "data" = None.
Proof.
  destruct s as [[] [] [] [] []]; reflexivity.
Qed.

Lemma astroalign_unbound (s : site) :
  has_astroalign s = false ->
  find_global (globals (import_module s)) "astroalign" = None.
Proof.
  destruct s as [[] [] [] [] []]; simpl; intros H;
    solve [discriminate H | reflexivity].
Qed.

Lemma astroalign_bound (s : site) :
  has_astroalign s = true ->
  find_global (globals (import_module s)) "astroalign"
  = Some (PImported "astroalign").
Proof.
  destruct s as [[] [] [] [] []]; simpl; intros H;
    solve [discriminate H | reflexivity].
Qed.

Lemma register_translation_unbound (s : site) :
  has_skimage s = false ->
  find_global (globals (import_module s)) "register_translation" = None.
Proof.
  destruct s as [[] [] [] [] []]; simpl; intros H;
    solve [discriminate H | reflexivity].
Qed.

Lemma chi2_shift_unbound (s : site) :
  has_image_registration s = false ->
  find_global (globals (import_module s)) "chi2_shift" = None.
Proof.
  destruct s as [[] [] [] [] []]; simpl; intros H;
    solve [discriminate H | reflexivity].
Qed.

Lemma imreg_dft_unbound (s : site) :
  has_imreg_dft s = false ->
  find_global (globals (import_module s)) "imreg_dft" = None.
Proof.
  destruct s as [[] [] [] [] []]; simpl; intros H;
    solve [discriminate H | reflexivity].
Qed.

Lemma skimage_notice_printed (s : site) :
  has_skimage s = false ->
  In "Unable to find skimage or scipy module(s); skimage alignment method is disabled."
     (stdout (import_module s)).
Proof.
  destruct s as [[] [] [] [] []]; simpl; intros H;
    solve [discriminate H | vm_compute; tauto].
Qed.

(** ** Traces *)

Lemma invoked_app c t t' : invoked c (t ++ t') = invoked c t || invoked c t'.
Proof. apply existsb_app. Qed.

Lemma no_backend_call_app t t' :
  no_backend_call (t ++ t') = no_backend_call t && no_backend_call t'.
Proof. apply forallb_app. Qed.

Lemma no_backend_call_not_invoked c t :
  is_backend c = true -> no_backend_call t = true -> invoked c t = false.
Proof.
  intros Hc. induction t as [| d t IH]; simpl; [reflexivity |].
  intros H. apply andb_prop in H. destruct H as [Hd Ht].
  rewrite (IH Ht), orb_false_r.
  destruct c, d; try reflexivity; discriminate.
Qed.

(** ** align *)

Section AlignFacts.
Context {spectrum transform : Type}.
Variable g : list (string * pyobj).
Variable lib : externals spectrum transform.

Lemma align_unfold (source_s : image_s) reference method :
  align g lib source_s reference method =
  (np_ref <- reference_array lib (as_list source_s) reference ;;
   outputs <- for_each (align_source g lib method np_ref) (as_list source_s) ;;
   match source_s with
   | Many _ => ret (Many outputs)
   | One _ =>
       match outputs with
       | o :: _ => ret (One o)
       | [] => raise (IndexError "list index out of range")
       end
   end).
Proof. reflexivity. Qed.


Lemma reference_array_quiet sources reference :
  no_backend_call (fst (reference_array lib sources reference)) = true.
Proof.
  unfold reference_array. destruct reference as [r |].
  - destruct r; reflexivity.
  - unfold call. destruct (ref_image lib sources) as [e | r];
      [reflexivity | destruct r; reflexivity].
Qed.


(** C1.  A single image gives a single output, the loop body's output
    for that image; a list of N images gives a list of N outputs whose
    i-th element is the loop body's output for the i-th image.  Both
    directions: [align] returns exactly when the reference converts and
    every source aligns. *)
Theorem align_single_or_list reference method :
  (forall v out,
      (exists t, align g lib (One v) reference method = (t, inr out)) <->
      (exists np_ref o t0 t1,
          reference_array lib [v] reference = (t0, inr np_ref) /\
          align_source g lib method np_ref v = (t1, inr o) /\
          out = One o)) /\
  (forall l out,
      (exists t, align g lib (Many l) reference method = (t, inr out)) <->
      (exists np_ref os t0,
          reference_array lib l reference = (t0, inr np_ref) /\
          out = Many os /\
          List.length os = List.length l /\
          forall i v, nth_error l i = Some v ->
            exists o, nth_error os i = Some o /\
              exists t1, align_source g lib method np_ref v = (t1, inr o))).
Proof.
  split; intros x out; rewrite align_unfold; cbn [as_list]; split.
  - intros [t H].
    apply bind_value_inv in H. destruct H as (t0 & np_ref & t1 & Href & H & _).
    apply bind_value_inv in H. destruct H as (t2 & outputs & t3 & Hloop & H & _).
    apply for_each_values in Hloop.
    inversion Hloop as [| v' o l' os [t' Ho] Hrest]; subst.
    inversion Hrest; subst. inversion H; subst.
    exists np_ref, o, t0, t'. auto.
  - intros (np_ref & o & t0 & t1 & Href & Ho & ->).
    rewrite (bind_value _ Href). cbn [for_each].
    rewrite (bind_value _ Ho). cbn. eauto.
  - intros [t H].
    apply bind_value_inv in H. destruct H as (t0 & np_ref & t1 & Href & H & _).
    apply bind_value_inv in H. destruct H as (t2 & outputs & t3 & Hloop & H & _).
    apply for_each_values in Hloop. inversion H; subst.
    apply Forall2_pointwise in Hloop. destruct Hloop as [Hlen Hnth].
    exists np_ref, outputs, t0. auto.
  - intros (np_ref & os & t0 & Href & -> & Hlen & Hnth).
    destruct (for_each_returns (align_source g lib method np_ref) (l := x) (ys := os))
      as [t Hloop].
    { apply Forall2_pointwise. auto. }
    rewrite (bind_value _ Href), (bind_value _ Hloop). cbn. eauto.
Qed.


End AlignFacts.

Lemma unknown_method_eqb method :
  ~ In method ["astroalign"; "skimage"; "chi2"; "imreg"] ->
  (method =? "astroalign") = false /\ (method =? "skimage") = false /\
  (method =? "chi2") = false /\ (method =? "imreg") = false.
Proof.
  intros H. repeat split; apply String.eqb_neq; intros ->; apply H;
    simpl; auto.
Qed.

Section DispatchFacts.
Context {spectrum transform : Type}.
Variable lib : externals spectrum transform.

(** The chi2 branch reads the global [data]; where no such global
    exists the branch ends in an exception before the shift routine is
    reached. *)
Lemma dispatch_chi2_fails g np_ref np_src :
  find_global g "data" = None ->
  exists t e, dispatch g lib "chi2" np_ref np_src = (t, inl e) /\
              invoked Shiftnd t = false.
Proof.
  intros Hdata. unfold dispatch.
  change ("chi2" =? "astroalign") with false.
  change ("chi2" =? "skimage") with false.
  change ("chi2" =? "chi2") with true. cbv iota.
  unfold lookup. rewrite Hdata.
  destruct (find_global g "chi2_shift"); cbn; [| eauto].
  destruct (chi2_shift lib np_ref np_src) as [e | [[[dx dy] edx] edy]]; cbn.
  - destruct e; cbn; eauto.
  - destruct (find_global g "fft_tools"); cbn; eauto.
Qed.

Lemma align_source_chi2_fails g np_ref v :
  find_global g "data" = None ->
  exists t e, align_source g lib "chi2" np_ref v = (t, inl e) /\
              invoked Shiftnd t = false.
Proof.
  intros Hdata. unfold align_source.
  destruct (carried v) as [a |] eqn:Hv.
  - rewrite (to_np_carried _ _ Hv).
    destruct (dispatch_chi2_fails g np_ref a Hdata) as (t & e & Hd & Ht).
    cbn [bind]. rewrite (bind_error _ Hd). cbn.
    exists ([ToNp] ++ t), e. split; [reflexivity |].
    rewrite invoked_app, Ht. reflexivity.
  - destruct v; try discriminate. cbn. eauto.
Qed.

(** C3.  With method "chi2" and at least one source, whatever is
    installed, [align] never returns an image and never reaches the
    shift routine: the branch reads [data], a name nothing binds, and
    the handler turns the NameError into the "disabled" error. *)
Theorem align_chi2_never_shifts (s : site) source_s reference :
  as_list source_s <> [] ->
  invoked Shiftnd
    (trace_of (align (globals (import_module s)) lib source_s reference "chi2"))
  = false /\
  forall out,
    result_of (align (globals (import_module s)) lib source_s reference "chi2")
    <> inr out.
Proof.
  intros Hne. rewrite align_unfold.
  pose proof (reference_array_quiet lib (as_list source_s) reference) as Hq.
  apply (no_backend_call_not_invoked Shiftnd) in Hq; [| reflexivity].
  destruct (reference_array lib (as_list source_s) reference)
    as [t0 [e | np_ref]] eqn:Href; simpl in Hq.
  - cbn. split; [assumption | discriminate].
  - destruct (as_list source_s) as [| v rest] eqn:Hl; [contradiction |].
    destruct (align_source_chi2_fails _ np_ref v (data_never_bound s))
      as (t & e & Hv & Ht).
    cbn [bind]. rewrite (bind_error _ (for_each_stops _ _ _ Hv)).
    unfold trace_of, result_of. cbn [fst snd].
    rewrite invoked_app, Hq, Ht. split; [reflexivity | discriminate].
Qed.

(** What each branch does when the first name it reads is unbound. *)
Lemma dispatch_first_name_unbound (s : site) method np_ref np_src :
  (method = "astroalign" /\ has_astroalign s = false) \/
  (method = "skimage" /\ has_skimage s = false) \/
  (method = "chi2" /\ has_image_registration s = false) \/
  (method = "imreg" /\ has_imreg_dft s = false) ->
  dispatch (globals (import_module s)) lib method np_ref np_src
  = ([], inl (ValueError (format DISABLED [method; named_dependency method]))).
Proof.
  intros [[-> H] | [[-> H] | [[-> H] | [-> H]]]]; unfold dispatch, lookup.
  - rewrite (astroalign_unbound _ H). reflexivity.
  - rewrite (register_translation_unbound _ H). reflexivity.
  - rewrite (chi2_shift_unbound _ H). reflexivity.
  - rewrite (imreg_dft_unbound _ H). reflexivity.
Qed.

(** With the provider of [method] not installed, [align] raises the
    "disabled" error of that branch, and no backend is called. *)
Lemma align_provider_missing (s : site) method v r a b :
  In method ["astroalign"; "skimage"; "chi2"; "imreg"] ->
  provider_installed s method = false ->
  carried v = Some a ->
  carried r = Some b ->
  align (globals (import_module s)) lib (One v) (Some r) method
  = ([ToNp; ToNp],
     inl (ValueError (format DISABLED [method; named_dependency method]))).
Proof.
  intros Hm Hp Hv Hr.
  rewrite align_unfold. unfold reference_array. cbn [as_list bind ret].
  rewrite (to_np_carried _ _ Hr). cbn [bind app for_each].
  unfold align_source. rewrite (to_np_carried _ _ Hv). cbn [bind].
  rewrite dispatch_first_name_unbound; [reflexivity |].
  simpl in Hm. destruct Hm as [<- | [<- | [<- | [<- | []]]]]; auto 6.
Qed.

(** C4.  With skimage not installed, [align] with method "skimage"
    raises the "disabled" error without calling a backend, but the
    message names "scipy or numpy" as the missing module, which does
    not mention skimage, while the notice printed at load time names
    "skimage or scipy". *)
Theorem align_skimage_disabled_message (s : site) v r a b :
  has_skimage s = false ->
  carried v = Some a ->
  carried r = Some b ->
  align (globals (import_module s)) lib (One v) (Some r) "skimage"
  = ([ToNp; ToNp],
     inl (ValueError
            "Alignment method skimage is disabled because the scipy or numpy module(s) is/are not installed."))
  /\ contains "skimage" (named_dependency "skimage") = false
  /\ In "Unable to find skimage or scipy module(s); skimage alignment method is disabled."
        (stdout (import_module s)).
Proof.
  intros Hs Hv Hr. split; [| split];
    [| reflexivity | apply skimage_notice_printed, Hs].
  rewrite (@align_provider_missing s "skimage" v r a b);
    [reflexivity | simpl; auto | exact Hs | exact Hv | exact Hr].
Qed.

(** C5.  For a method outside the four names, a non-empty input of
    image carriers and a reference that converts, [align] raises
    ValueError with a message that quotes the method; the trace up to
    the error holds no backend call. *)
Theorem align_unknown_method g source_s reference method v rest t0 np_ref a :
  ~ In method ["astroalign"; "skimage"; "chi2"; "imreg"] ->
  as_list source_s = v :: rest ->
  reference_array lib (as_list source_s) reference = (t0, inr np_ref) ->
  carried v = Some a ->
  align g lib source_s reference method
  = (t0 ++ [ToNp],
     inl (ValueError ("Unexpected alignment method " ++ method ++ "!")%string))
  /\ no_backend_call (t0 ++ [ToNp]) = true.
Proof.
  intros Hm Hl Href Hv.
  pose proof (reference_array_quiet lib (as_list source_s) reference) as Hq.
  rewrite Href in Hq. simpl in Hq.
  split; [| rewrite no_backend_call_app, Hq; reflexivity].
  rewrite align_unfold, (bind_value _ Href), Hl.
  assert (Hsrc : align_source g lib method np_ref v
                 = ([ToNp], inl (ValueError
                      ("Unexpected alignment method " ++ method ++ "!")%string))).
  { unfold align_source. rewrite (to_np_carried _ _ Hv). cbn [bind].
    unfold dispatch.
    destruct (unknown_method_eqb Hm) as (-> & -> & -> & ->). reflexivity. }
  rewrite (bind_error _ (for_each_stops _ _ _ Hsrc)). reflexivity.
Qed.

End DispatchFacts.

(** ** sources, the catalog aligner *)

Section CatalogFacts.
Context {spectrum transform : Type}.
Variable lib : externals spectrum transform.

Lemma align_catalog_returns g npref cat T d :
  find_global g "astroalign" <> None ->
  find_transform lib (map xy (cat_data cat)) npref = inr (T, d) ->
  align_catalog g lib npref cat = ([FindTransform], inr (moved lib T cat)).
Proof.
  intros Hg Hf. unfold align_catalog, lookup.
  destruct (find_global g "astroalign"); [| contradiction].
  cbn [bind ret app]. rewrite Hf. cbn [call bind fst].
  rewrite for_each_pure. reflexivity.
Qed.

Lemma matched_catalogs npref (catalogs : list catalog) :
  (forall cat, In cat catalogs ->
     exists r, find_transform lib (map xy (cat_data cat)) npref = inr r) ->
  exists aligned,
    Forall2
      (fun cat al =>
         exists T d,
           find_transform lib (map xy (cat_data cat)) npref = inr (T, d) /\
           al = moved lib T cat)
      catalogs aligned.
Proof.
  induction catalogs as [| cat rest IH]; intros H.
  - exists []. constructor.
  - destruct IH as [aligned Hrest]; [intros; apply H; simpl; auto |].
    destruct (H cat (or_introl eq_refl)) as [[T d] Hf].
    exists (moved lib T cat :: aligned). constructor; eauto.
Qed.

(** C6.  For a non-empty list of catalogs, with astroalign loaded and
    a point matcher that finds a transform for every catalog, [sources]
    returns one aligned catalog per input catalog, in the input order;
    the i-th aligned catalog is the i-th catalog's rows, each turned into
    a record moved by that catalog's transform, in row order.  The
    transforms are computed against [reference], or against the first
    catalog when [reference] is absent. *)
Theorem sources_one_aligned_catalog_each (s : site) c rest reference :
  has_astroalign s = true ->
  (forall cat, In cat (c :: rest) ->
     exists r,
       find_transform lib (map xy (cat_data cat))
         (map xy (cat_data match reference with Some r => r | None => c end))
       = inr r) ->
  exists t aligned,
    sources (globals (import_module s)) lib (c :: rest) reference
    = (t, inr aligned) /\
    List.length aligned = List.length (c :: rest) /\
    forall i cat, nth_error (c :: rest) i = Some cat ->
      exists T d,
        find_transform lib (map xy (cat_data cat))
          (map xy (cat_data match reference with Some r => r | None => c end))
        = inr (T, d) /\
        nth_error aligned i = Some (moved lib T cat) /\
        List.length (moved lib T cat) = List.length (cat_data cat).
Proof.
  intros Hs Hfind.
  set (ref := match reference with Some r => r | None => c end) in *.
  destruct (matched_catalogs _ _ Hfind) as [aligned Hall].
  assert (Hbound : find_global (globals (import_module s)) "astroalign" <> None).
  { rewrite (astroalign_bound _ Hs). discriminate. }
  destruct (for_each_returns
              (align_catalog (globals (import_module s)) lib
                 (map xy (cat_data ref)))
              (l := c :: rest) (ys := aligned)) as [t Hloop].
  { revert Hall. apply Forall2_impl.
    intros cat al (T & d & Hf & ->). exists [FindTransform].
    apply align_catalog_returns with (d := d); assumption. }
  exists t, aligned. split; [| apply Forall2_pointwise in Hall].
  - unfold sources.
    replace (default_reference (c :: rest) reference) with (ret ref)
      by (subst ref; destruct reference; reflexivity).
    cbn [bind ret]. rewrite Hloop. reflexivity.
  - destruct Hall as [Hlen Hnth]. split; [assumption |].
    intros i cat Hi. destruct (Hnth i cat Hi) as (al & Hal & T & d & Hf & ->).
    exists T, d. unfold moved at 2. rewrite length_map. auto.
Qed.

(** C10.  With astroalign not loaded and at least one catalog,
    [sources] ends with the NameError of the unbound name [astroalign],
    raised at the first catalog before the point matcher is reached:
    nothing around the call catches it. *)
Theorem sources_without_astroalign (s : site) catalogs reference :
  has_astroalign s = false ->
  catalogs <> [] ->
  sources (globals (import_module s)) lib catalogs reference
  = ([], inl (NameError "astroalign")).
Proof.
  intros Hs Hne. destruct catalogs as [| c rest]; [contradiction |].
  unfold sources.
  replace (default_reference (c :: rest) reference)
    with (ret match reference with Some r => r | None => c end)
    by (destruct reference; reflexivity).
  cbn [bind ret app].
  assert (Hc : align_catalog (globals (import_module s)) lib
                 (map xy (cat_data match reference with
                                   | Some r => r
                                   | None => c
                                   end)) c
               = ([], inl (NameError "astroalign"))).
  { unfold align_catalog, lookup. rewrite (astroalign_unbound _ Hs).
    reflexivity. }
  rewrite (for_each_stops _ _ _ Hc). reflexivity.
Qed.

End CatalogFacts.

(** ** The code run on concrete inputs *)

Example align_list_run :
  align (globals (import_module everything_installed)) still_lib
    (Many [HDU image_A card; Array image_B]) None "astroalign"
  = ([RefImage; ToNp; ToNp; AstroalignRegister; ToNp; AstroalignRegister],
     inr (Many [HDU image_A card; Array image_B])).
Proof. reflexivity. Qed.

Example align_single_run :
  align (globals (import_module everything_installed)) still_lib
    (One (HDU image_A card)) (Some (Array image_B)) "imreg"
  = ([ToNp; ToNp; ImregSimilarity], inr (One (HDU image_A card))).
Proof. reflexivity. Qed.

Example align_chi2_run :
  align (globals (import_module everything_installed)) still_lib
    (One (Array image_A)) (Some (Array image_A)) "chi2"
  = ([ToNp; ToNp; Chi2Shift],
     inl (ValueError
            "Alignment method chi2 is disabled because the image_registration module(s) is/are not installed.")).
Proof. reflexivity. Qed.

Example chi2_as_specified_run :
  chi2_as_specified still_lib image_A image_A
  = ([Chi2Shift; Shiftnd], inr image_A).
Proof. reflexivity. Qed.

Example align_skimage_without_scipy_run :
  align
    (globals (import_module
       {| has_astroalign := true; has_skimage := true; has_scipy := false;
          has_image_registration := true; has_imreg_dft := true |}))
    still_lib (One (Array image_A)) (Some (Array image_A)) "skimage"
  = ([ToNp; ToNp; RegisterTranslation],
     inl (ValueError
            "Alignment method skimage is disabled because the scipy or numpy module(s) is/are not installed.")).
Proof. reflexivity. Qed.

Example align_empty_list_run :
  align (globals (import_module everything_installed)) still_lib
    (Many []) (Some (Array image_A)) "no such method"
  = ([ToNp], inr (Many [])).
Proof. reflexivity. Qed.

Example sources_empty_list_run :
  sources (globals (import_module nothing_installed)) still_lib
    [] (Some field_1)
  = ([], inr []).
Proof. reflexivity. Qed.


Lemma align_chi2_never_shifts_witness :
  invoked Shiftnd
    (trace_of (align (globals (import_module everything_installed)) still_lib
                 (One (Array image_A)) (Some (Array image_A)) "chi2"))
  = false /\
  forall out,
    result_of (align (globals (import_module everything_installed)) still_lib
                 (One (Array image_A)) (Some (Array image_A)) "chi2")
    <> inr out.
Proof.
  apply (align_chi2_never_shifts still_lib everything_installed
           (One (Array image_A)) (Some (Array image_A))).
  discriminate.
Defined.

Lemma align_skimage_disabled_message_witness :
  align (globals (import_module without_skimage)) still_lib
    (One (Array image_A)) (Some (HDU image_B card)) "skimage"
  = ([ToNp; ToNp],
     inl (ValueError
            "Alignment method skimage is disabled because the scipy or numpy module(s) is/are not installed."))
  /\ contains "skimage" (named_dependency "skimage") = false
  /\ In "Unable to find skimage or scipy module(s); skimage alignment method is disabled."
        (stdout (import_module without_skimage)).
Proof.
  apply (align_skimage_disabled_message still_lib without_skimage
           (Array image_A) (HDU image_B card) eq_refl eq_refl eq_refl).
Defined.

Lemma align_unknown_method_witness :
  align (globals (import_module everything_installed)) still_lib
    (Many [Array image_A; HDU image_B card]) None "sift"
  = ([RefImage; ToNp] ++ [ToNp],
     inl (ValueError "Unexpected alignment method sift!"))
  /\ no_backend_call ([RefImage; ToNp] ++ [ToNp]) = true.
Proof.
  apply (align_unknown_method still_lib
           (globals (import_module everything_installed))
           (Many [Array image_A; HDU image_B card]) None
           (method := "sift") (v := Array image_A) (rest := [HDU image_B card])
           (np_ref := image_A) (a := image_A)).
  - intros [H | [H | [H | [H | []]]]]; discriminate H.
  - reflexivity.
  - reflexivity.
  - reflexivity.
Defined.

Lemma sources_one_aligned_catalog_each_witness :
  exists t aligned,
    sources (globals (import_module everything_installed)) still_lib
      [field_1; field_2] None
    = (t, inr aligned) /\
    List.length aligned = 2%nat /\
    forall i cat, nth_error [field_1; field_2] i = Some cat ->
      exists T d,
        find_transform still_lib (map xy (cat_data cat))
          (map xy (cat_data field_1))
        = inr (T, d) /\
        nth_error aligned i = Some (moved still_lib T cat) /\
        List.length (moved still_lib T cat) = List.length (cat_data cat).
Proof.
  apply (sources_one_aligned_catalog_each still_lib everything_installed
           (c := field_1) (rest := [field_2]) None).
  - reflexivity.
  - intros cat _. eexists. reflexivity.
Defined.

Lemma sources_without_astroalign_witness :
  sources (globals (import_module nothing_installed)) still_lib
    [field_1; field_2] None
  = ([], inl (NameError "astroalign")).
Proof.
  apply (sources_without_astroalign still_lib nothing_installed
           (catalogs := [field_1; field_2]) None).
  - reflexivity.
  - discriminate.
Defined.

(** * Further properties of the three functions *)

(** ** Loops, once more *)

Lemma for_each_fails_after {A B} (body : A -> run B) pre x post tp ys tx e :
  for_each body pre = (tp, inr ys) ->
  body x = (tx, inl e) ->
  for_each body (pre ++ x :: post) = (tp ++ tx, inl e).
Proof.
  revert tp ys. induction pre as [| p pre IH]; intros tp ys Hpre Hx.
  - inversion Hpre; subst. simpl. rewrite Hx. reflexivity.
  - simpl in Hpre. apply bind_value_inv in Hpre.
    destruct Hpre as (t0 & y & t1 & Hp & H & ->).
    apply bind_value_inv in H. destruct H as (t2 & ys' & t3 & Hrest & H & ->).
    inversion H; subst.
    simpl. rewrite (bind_value _ Hp), (IH _ _ Hrest Hx). simpl.
    rewrite app_nil_r, app_assoc. reflexivity.
Qed.

Lemma for_each_same_trace {A B} (body : A -> run B) (tr : list callee) l ys :
  Forall2 (fun x y => body x = (tr, inr y)) l ys ->
  for_each body l = (List.concat (map (fun _ => tr) l), inr ys).
Proof.
  induction 1 as [| x y l ys Hx _ IH]; simpl; [reflexivity |].
  rewrite Hx. cbn [bind]. rewrite IH. cbn. rewrite app_nil_r. reflexivity.
Qed.

Lemma for_each_ext {A B} (f f' : A -> run B) l :
  (forall x, f x = f' x) -> for_each f l = for_each f' l.
Proof.
  intros H. induction l as [| x l IH]; simpl; [reflexivity |].
  rewrite H, IH. reflexivity.
Qed.

Lemma for_each_map {A B C} (f : B -> run C) (h : A -> B) l :
  for_each f (map h l) = for_each (fun x => f (h x)) l.
Proof.
  induction l as [| x l IH]; simpl; [reflexivity |].
  rewrite IH. reflexivity.
Qed.

Lemma bind_trace_all {A B} (P : callee -> bool) (m : run A) (k : A -> run B) :
  forallb P (fst m) = true ->
  (forall a, forallb P (fst (k a)) = true) ->
  forallb P (fst (bind m k)) = true.
Proof.
  destruct m as [t [e | a]]; simpl; intros Ht Hk; [assumption |].
  specialize (Hk a). destruct (k a) as [t' r]. simpl in *.
  rewrite forallb_app, Ht, Hk. reflexivity.
Qed.

Lemma for_each_trace_all {A B} (P : callee -> bool) (body : A -> run B) l :
  (forall x, forallb P (fst (body x)) = true) ->
  forallb P (fst (for_each body l)) = true.
Proof.
  intros H. induction l as [| x l IH]; simpl; [reflexivity |].
  apply bind_trace_all; [apply H |]. intros y.
  apply bind_trace_all; [apply IH |]. reflexivity.
Qed.

Lemma concat_singletons {A B} (c : B) (l : list A) :
  List.concat (map (fun _ => [c]) l) = map (fun _ => c) l.
Proof.
  induction l as [| x l IH]; simpl; [reflexivity |]. rewrite IH. reflexivity.
Qed.


Lemma fourier_shift_missing (s : site) :
  has_scipy s = false ->
  find_global (globals (import_module s)) "fourier_shift" = None.
Proof.
  destruct s as [[] [] [] [] []]; simpl; intros H;
    solve [discriminate H | reflexivity].
Qed.

Lemma register_translation_loaded (s : site) :
  has_skimage s = true ->
  find_global (globals (import_module s)) "register_translation"
  = Some (PImported "register_translation").
Proof.
  destruct s as [[] [] [] [] []]; simpl; intros H;
    solve [discriminate H | reflexivity].
Qed.

(** ** align: input shapes, the reference, failures *)

Section AlignMore.
Context {spectrum transform : Type}.
Variable g : list (string * pyobj).
Variable lib : externals spectrum transform.

(** X1.  All or nothing: when the loop body raises at some source after
    succeeding on the ones before it, [align] raises that exception, no
    output is returned, and the run ends there: the trace does not depend
    on the sources that follow. *)
Theorem align_stops_at_first_failure
  pre v post reference method t0 np_ref tp outs tv e :
  reference_array lib (pre ++ v :: post) reference = (t0, inr np_ref) ->
  for_each (align_source g lib method np_ref) pre = (tp, inr outs) ->
  align_source g lib method np_ref v = (tv, inl e) ->
  align g lib (Many (pre ++ v :: post)) reference method
  = (t0 ++ tp ++ tv, inl e).
Proof.
  intros Href Hpre Hv. rewrite align_unfold. cbn [as_list].
  rewrite (bind_value _ Href).
  rewrite (bind_error _ (@for_each_fails_after _ _ _ _ _ post _ _ _ _ Hpre Hv)).
  reflexivity.
Qed.

(** X2.  On an empty list the method is never looked at: once the
    reference converts, [align] returns an empty list, whatever the method
    string is and whatever is installed. *)
Theorem align_empty_list_any_method reference method t0 np_ref :
  reference_array lib [] reference = (t0, inr np_ref) ->
  align g lib (Many []) reference method = (t0, inr (Many [])).
Proof.
  intros Href. rewrite align_unfold. cbn [as_list].
  rewrite (bind_value _ Href). cbn. rewrite app_nil_r. reflexivity.
Qed.

Lemma except_trace_all {A} (P : callee -> bool) (m h : run A) :
  forallb P (fst m) = true ->
  forallb P (fst h) = true ->
  forallb P (fst (except_NameError m h)) = true.
Proof.
  destruct m as [t [e | a]], h as [t' r]; simpl; intros Ht Hh;
    [| assumption].
  destruct e; simpl; try assumption.
  rewrite forallb_app, Ht, Hh. reflexivity.
Qed.

Lemma lookup_trace_all (P : callee -> bool) (n : string) :
  forallb P (fst (lookup g n)) = true.
Proof.
  unfold lookup. destruct (find_global g n); reflexivity.
Qed.

Lemma dispatch_no_selector method np_ref np_src :
  forallb (fun c => negb (callee_eqb RefImage c))
    (fst (dispatch g lib method np_ref np_src)) = true.
Proof.
  unfold dispatch.
  repeat match goal with
         | |- context [if ?b then _ else _] => destruct b
         end;
    try reflexivity;
    (apply except_trace_all; [| reflexivity]);
    repeat first
      [ apply lookup_trace_all
      | reflexivity
      | apply bind_trace_all; [| intros ?]
      | match goal with
        | r : (Q * Q * Q * Q)%type |- _ => destruct r as [[[? ?] ?] ?]
        end ].
Qed.

Lemma align_source_no_selector method np_ref v :
  forallb (fun c => negb (callee_eqb RefImage c))
    (fst (align_source g lib method np_ref v)) = true.
Proof.
  unfold align_source. apply bind_trace_all; [reflexivity |]. intros a.
  apply bind_trace_all; [apply dispatch_no_selector | reflexivity].
Qed.

Lemma no_selector_not_invoked t :
  forallb (fun c => negb (callee_eqb RefImage c)) t = true ->
  invoked RefImage t = false.
Proof.
  induction t as [| c t IH]; simpl; [reflexivity |].
  intros H. apply andb_prop in H. destruct H as [Hc Ht].
  rewrite (IH Ht). destruct c; try reflexivity; discriminate.
Qed.

Lemma loop_no_selector (source_s : image_s) method np_ref :
  forallb (fun c => negb (callee_eqb RefImage c))
    (fst (outputs <- for_each (align_source g lib method np_ref)
                       (as_list source_s) ;;
          match source_s with
          | Many _ => ret (Many outputs)
          | One _ =>
              match outputs with
              | o :: _ => ret (One o)
              | [] => raise (IndexError "list index out of range")
              end
          end)) = true.
Proof.
  apply bind_trace_all.
  - apply for_each_trace_all. intros x. apply align_source_no_selector.
  - intros outputs. destruct source_s; [destruct outputs |]; reflexivity.
Qed.

Lemma reference_array_none_trace sources :
  exists t,
    fst (reference_array lib sources None) = RefImage :: t /\
    forallb (fun c => negb (callee_eqb RefImage c)) t = true.
Proof.
  unfold reference_array, call.
  destruct (ref_image lib sources) as [e | r]; cbn [bind].
  - exists []. split; reflexivity.
  - exists [ToNp]. split; [| reflexivity].
    unfold to_np, call. reflexivity.
Qed.

(** X3.  The reference selector is used exactly when no reference is
    passed: with a reference it is never called; without one it is the
    first call of the run and is not called again. *)
Theorem align_selector_only_without_reference source_s method :
  (forall r,
      invoked RefImage (trace_of (align g lib source_s (Some r) method))
      = false) /\
  (exists t,
      trace_of (align g lib source_s None method) = RefImage :: t /\
      invoked RefImage t = false).
Proof.
  split.
  - intros r. apply no_selector_not_invoked.
    unfold trace_of. rewrite align_unfold.
    apply bind_trace_all.
    + unfold reference_array. cbn [bind ret]. destruct r; reflexivity.
    + intros np_ref. apply loop_no_selector.
  - destruct (reference_array_none_trace (as_list source_s))
      as (t' & Ht & Hq).
    unfold trace_of. rewrite align_unfold.
    assert (Href : exists t0 res,
               reference_array lib (as_list source_s) None = (t0, res))
      by (destruct (reference_array lib (as_list source_s) None); eauto).
    destruct Href as (t0 & [e | np_ref] & Href);
      rewrite Href in Ht; simpl in Ht; subst t0.
    + rewrite (bind_error _ Href). exists t'. split; [reflexivity |].
      apply no_selector_not_invoked, Hq.
    + rewrite (bind_value _ Href). cbn [fst].
      eexists. split; [reflexivity |].
      apply no_selector_not_invoked. rewrite forallb_app, Hq.
      apply loop_no_selector.
Qed.

(** X4.  A single image is treated as a list of one: [align] on the image
    and [align] on the one-element list make the same calls, raise the
    same exception, and return the same output, unwrapped in the first
    case. *)
Theorem align_single_as_list_of_one v reference method t :
  (forall o,
      align g lib (One v) reference method = (t, inr (One o)) <->
      align g lib (Many [v]) reference method = (t, inr (Many [o]))) /\
  (forall e,
      align g lib (One v) reference method = (t, inl e) <->
      align g lib (Many [v]) reference method = (t, inl e)).
Proof.
  rewrite !align_unfold. cbn [as_list for_each].
  destruct (reference_array lib [v] reference) as [t0 [e0 | np_ref]];
    cbn [bind].
  - split; intros x; split; intros H; inversion H; reflexivity.
  - destruct (align_source g lib method np_ref v) as [t1 [e1 | o1]]; cbn;
      split; intros x; split; intros H; inversion H; reflexivity.
Qed.

(** X5.  A reference of an unsupported type, whether passed in or picked
    by the selector, stops [align] at once with the TypeError of line 69
    quoting the type: no source is converted and the method is not looked
    at, so this error comes before the one for an unknown method. *)
Theorem align_reference_type_error source_s method ty :
  align g lib source_s (Some (Other ty)) method
  = ([ToNp],
     inl (TypeError
            ("Cannot align to unexpected type " ++ ty
             ++ "; expected numpy array or FITS HDU")%string)) /\
  (ref_image lib (as_list source_s) = inr (Other ty) ->
   align g lib source_s None method
   = ([RefImage; ToNp],
      inl (TypeError
             ("Cannot align to unexpected type " ++ ty
              ++ "; expected numpy array or FITS HDU")%string))).
Proof.
  split; [reflexivity |].
  intros Hsel. rewrite align_unfold. unfold reference_array.
  rewrite Hsel. reflexivity.
Qed.

End AlignMore.

(** ** align: what the backends receive and what comes back *)

Section BackendFacts.
Context {spectrum transform : Type}.
Variable lib : externals spectrum transform.




(** X8.  An exception raised inside the registration library leaves
    [align] unchanged, except a NameError: although astroalign is
    installed, the handler of line 79 reports it as the "disabled"
    error. *)
Theorem align_astroalign_backend_error (s : site) v r a b e :
  has_astroalign s = true ->
  carried v = Some a ->
  carried r = Some b ->
  astroalign_register lib a b = inl e ->
  align (globals (import_module s)) lib (One v) (Some r) "astroalign"
  = ([ToNp; ToNp; AstroalignRegister],
     inl match e with
         | NameError _ =>
             ValueError
               "Alignment method astroalign is disabled because the astroalign module(s) is/are not installed."
         | _ => e
         end).
Proof.
  intros Hs Hv Hr He. rewrite align_unfold.
  unfold reference_array. cbn [as_list bind ret for_each].
  rewrite (to_np_carried _ _ Hr). cbn [bind app].
  unfold align_source. rewrite (to_np_carried _ _ Hv). cbn [bind].
  unfold dispatch, lookup. cbn [String.eqb Ascii.eqb Bool.eqb].
  rewrite (astroalign_bound _ Hs). cbn [bind ret app].
  rewrite He. destruct e; reflexivity.
Qed.

(** X9.  With skimage installed and scipy missing, the skimage method
    first runs the shift estimation and only then fails, on the unbound
    [fourier_shift], with the "disabled" error; no Fourier transform is
    taken. *)
Theorem align_skimage_without_scipy (s : site) v r a b shift :
  has_skimage s = true ->
  has_scipy s = false ->
  carried v = Some a ->
  carried r = Some b ->
  register_translation lib b a 100 = inr shift ->
  align (globals (import_module s)) lib (One v) (Some r) "skimage"
  = ([ToNp; ToNp; RegisterTranslation],
     inl (ValueError
            "Alignment method skimage is disabled because the scipy or numpy module(s) is/are not installed.")).
Proof.
  intros Hk Hc Hv Hr Hshift. rewrite align_unfold.
  unfold reference_array. cbn [as_list bind ret for_each].
  rewrite (to_np_carried _ _ Hr). cbn [bind app].
  unfold align_source. rewrite (to_np_carried _ _ Hv). cbn [bind].
  unfold dispatch, lookup. cbn [String.eqb Ascii.eqb Bool.eqb].
  rewrite (register_translation_loaded _ Hk), (fourier_shift_missing _ Hc).
  cbn [bind ret app call]. rewrite Hshift. reflexivity.
Qed.

End BackendFacts.

(** ** Module load *)

(** X10.  At load time one notice is printed per optional import block
    that fails, and none otherwise: the astroalign notice exactly when
    astroalign is missing, the skimage notice exactly when skimage or scipy
    is missing, the chi2 notice exactly when image_registration is missing,
    the imreg notice exactly when imreg_dft is missing. *)
Theorem import_module_notices (s : site) :
  (In "Unable to find astroalign module(s); astroalign alignment method is disabled."
      (stdout (import_module s))
   <-> has_astroalign s = false) /\
  (In "Unable to find skimage or scipy module(s); skimage alignment method is disabled."
      (stdout (import_module s))
   <-> has_skimage s && has_scipy s = false) /\
  (In "Unable to find image_registration module(s); chi2 alignment method is disabled."
      (stdout (import_module s))
   <-> has_image_registration s = false) /\
  (In "Unable to find imreg_dft module(s); imreg alignment method is disabled."
      (stdout (import_module s))
   <-> has_imreg_dft s = false) /\
  List.length (stdout (import_module s))
  = ((if has_astroalign s then 0 else 1)
     + (if has_skimage s && has_scipy s then 0 else 1)
     + (if has_image_registration s then 0 else 1)
     + (if has_imreg_dft s then 0 else 1))%nat.
Proof.
  destruct s as [[] [] [] [] []]; vm_compute;
    repeat split; intros H; try discriminate H; try tauto;
    repeat (destruct H as [H | H]; try discriminate H); try contradiction.
Qed.

(** X11.  Which backend names exist after load: [astroalign] and
    [imreg_dft] follow their packages and [chi2_shift] and [fft_tools]
    follow image_registration, but [fourier_shift] exists only when both
    skimage and scipy import, because its import comes after skimage's in
    one block: with scipy installed and skimage missing it stays
    unbound. *)
Theorem import_module_bound_names (s : site) :
  (find_global (globals (import_module s)) "astroalign" <> None
   <-> has_astroalign s = true) /\
  (find_global (globals (import_module s)) "register_translation" <> None
   <-> has_skimage s = true) /\
  (find_global (globals (import_module s)) "fourier_shift" <> None
   <-> has_skimage s && has_scipy s = true) /\
  (find_global (globals (import_module s)) "chi2_shift" <> None
   <-> has_image_registration s = true) /\
  (find_global (globals (import_module s)) "fft_tools" <> None
   <-> has_image_registration s = true) /\
  (find_global (globals (import_module s)) "imreg_dft" <> None
   <-> has_imreg_dft s = true).
Proof.
  destruct s as [[] [] [] [] []]; vm_compute;
    repeat split; intros;
    solve [reflexivity | discriminate | congruence
          | exfalso; auto].
Qed.

(** ** sources: empty input, failures, calls *)

Section CatalogMore.
Context {spectrum transform : Type}.
Variable lib : externals spectrum transform.

(** X12.  An empty catalog list: without a reference [sources] raises
    IndexError (there is no first catalog to default to); with a
    reference it returns an empty list and never reads [astroalign], so
    it succeeds even where astroalign is missing. *)
Theorem sources_empty_list g :
  sources g lib [] None = ([], inl (IndexError "list index out of range")) /\
  forall r, sources g lib [] (Some r) = ([], inr []).
Proof. split; reflexivity. Qed.

(** X13.  All or nothing: when the point matcher raises at some catalog
    after succeeding on the ones before it, [sources] raises that very
    exception (nothing is caught, a NameError included) after one matcher
    call per catalog up to the failing one; the catalogs after it are not
    looked at and no aligned catalog is returned. *)
Theorem sources_stops_at_first_failure
  (s : site) pre cat post reference ref e :
  has_astroalign s = true ->
  default_reference (pre ++ cat :: post) reference = ([], inr ref) ->
  (forall c, In c pre ->
     exists r,
       find_transform lib (map xy (cat_data c)) (map xy (cat_data ref))
       = inr r) ->
  find_transform lib (map xy (cat_data cat)) (map xy (cat_data ref)) = inl e ->
  sources (globals (import_module s)) lib (pre ++ cat :: post) reference
  = (map (fun _ => FindTransform) pre ++ [FindTransform], inl e).
Proof.
  intros Hs Hdef Hpre Hcat. unfold sources. rewrite Hdef. cbn [bind app].
  assert (Hbound : find_global (globals (import_module s)) "astroalign" <> None).
  { rewrite (astroalign_bound _ Hs). discriminate. }
  destruct (matched_catalogs lib _ _ Hpre) as [aligned Hall].
  assert (Hloop : for_each
                    (align_catalog (globals (import_module s)) lib
                       (map xy (cat_data ref))) pre
                  = (map (fun _ => FindTransform) pre, inr aligned)).
  { rewrite <- concat_singletons. apply for_each_same_trace.
    revert Hall. apply Forall2_impl.
    intros c al (T & d & Hf & ->).
    apply align_catalog_returns with (d := d); assumption. }
  assert (Hfail : align_catalog (globals (import_module s)) lib
                    (map xy (cat_data ref)) cat
                  = ([FindTransform], inl e)).
  { unfold align_catalog, lookup.
    destruct (find_global (globals (import_module s)) "astroalign");
      [| contradiction].
    cbn [bind ret app]. rewrite Hcat. reflexivity. }
  rewrite (@for_each_fails_after _ _ _ _ _ post _ _ _ _ Hloop Hfail).
  reflexivity.
Qed.


End CatalogMore.

(** ** Sorting, the median and transposition *)



Lemma length_insert_sorted x l :
  List.length (insert_sorted x l) = S (List.length l).
Proof.
  induction l as [| z l IH]; simpl; [reflexivity |].
  destruct (Qle_bool x z); simpl; [reflexivity | rewrite IH; reflexivity].
Qed.

Lemma length_sort l : List.length (sort l) = List.length l.
Proof.
  unfold sort. induction l as [| x l IH]; simpl; [reflexivity |].
  rewrite length_insert_sorted, IH. reflexivity.
Qed.



Lemma nth_error_zip_cons {A} (hs : list A) (ts : list (list A)) j :
  nth_error (zip_cons hs ts) j =
  match nth_error hs j, nth_error ts j with
  | Some h, Some t => Some (h :: t)
  | _, _ => None
  end.
Proof.
  revert ts j. induction hs as [| h hs IH]; intros [| t ts] [| j]; simpl;
    try reflexivity.
  - destruct (nth_error hs j); reflexivity.
  - apply IH.
Qed.

Lemma nth_error_transpose {A} (l : list (list A)) j :
  l <> [] -> nth_error (transpose l) j = column j l.
Proof.
  induction l as [| r rest IH]; intros Hne; [contradiction |].
  destruct rest as [| r' rest'].
  - simpl. rewrite nth_error_map. destruct (nth_error r j); reflexivity.
  - change (transpose (r :: r' :: rest'))
      with (zip_cons r (transpose (r' :: rest'))).
    rewrite nth_error_zip_cons, IH by discriminate. reflexivity.
Qed.

Lemma pixels_at_columns i j (data : list ndarray) :
  pixels_at i j data =
  match column i data with
  | Some rows => column j rows
  | None => None
  end.
Proof.
  induction data as [| a rest IH]; [reflexivity |].
  cbn [pixels_at column]. unfold pixel at 1. rewrite IH.
  destruct (nth_error a i) as [r |]; [| reflexivity].
  destruct (column i rest) as [rows |]; cbn [column].
  - reflexivity.
  - destruct (nth_error r j); reflexivity.
Qed.

Lemma column_nonempty {A} j (l : list (list A)) (xs : list A) :
  l <> [] -> column j l = Some xs -> xs <> [].
Proof.
  destruct l as [| r rest]; [contradiction |]. intros _. simpl.
  destruct (nth_error r j), (column j rest); intros H; inversion H.
  discriminate.
Qed.

Lemma pixel_median_axis0 (data : list ndarray) i j :
  data <> [] ->
  pixel (median_axis0 data) i j = option_map median (pixels_at i j data).
Proof.
  intros Hne. unfold pixel, median_axis0.
  rewrite nth_error_map, (nth_error_transpose i Hne), pixels_at_columns.
  destruct (column i data) as [rows |] eqn:Hrows; [| reflexivity].
  cbn [option_map]. rewrite nth_error_map.
  rewrite (nth_error_transpose j (column_nonempty i Hne Hrows)).
  reflexivity.
Qed.


Lemma to_np_bare v msg : to_np (bare v) msg = to_np v msg.
Proof. destruct v; reflexivity. Qed.

Lemma for_each_to_np l data msg :
  Forall2 (fun v a => carried v = Some a) l data ->
  for_each (fun i => to_np i msg) l = (map (fun _ => ToNp) l, inr data).
Proof.
  intros H. rewrite <- concat_singletons. apply for_each_same_trace.
  revert H. apply Forall2_impl. intros v a Hv. apply to_np_carried, Hv.
Qed.

(** ** combine: headers, any number of images, failures *)

Section CombineMore.
Context {spectrum transform : Type}.
Variable lib : externals spectrum transform.

(** X15.  [combine] looks at the arrays only: stripping the headers off
    the inputs changes neither the calls made nor the outcome, for every
    input and every method. *)
Theorem combine_ignores_headers (hdu_s : image_s) (method : string) :
  combine lib (bare_s hdu_s) method = combine lib hdu_s method.
Proof.
  unfold combine. destruct (negb (method =? "numpy")); [reflexivity |].
  replace (as_list (bare_s hdu_s)) with (map bare (as_list hdu_s))
    by (destruct hdu_s; reflexivity).
  rewrite for_each_map.
  rewrite (for_each_ext _ (fun i => to_np i (to_np_default lib)));
    [reflexivity | intros v; apply to_np_bare].
Qed.



(** X18.  When an input is of an unsupported type, [combine] raises the
    TypeError of the conversion at that input: the inputs after it are not
    converted and no median is taken. *)
Theorem combine_type_error pre data ty post :
  Forall2 (fun v a => carried v = Some a) pre data ->
  combine lib (Many (pre ++ Other ty :: post)) "numpy"
  = (map (fun _ => ToNp) pre ++ [ToNp],
     inl (TypeError (format (to_np_default lib) [ty]))).
Proof.
  intros Hpre. rewrite combine_numpy. cbn [as_list].
  rewrite (bind_error _
             (@for_each_fails_after _ _ _ pre (Other ty) post _ _
                [ToNp] (TypeError (format (to_np_default lib) [ty]))
                (for_each_to_np (to_np_default lib) Hpre) eq_refl)).
  reflexivity.
Qed.

End CombineMore.

(** ** The further properties at concrete inputs *)

Lemma align_stops_at_first_failure_witness :
  align (globals (import_module everything_installed)) still_lib
    (Many ([Array image_A] ++ Other "int" :: [HDU image_B card]))
    (Some (Array image_A)) "astroalign"
  = ([ToNp] ++ [ToNp; AstroalignRegister] ++ [ToNp],
     inl (TypeError
            "Cannot align unexpected type int; expected numpy array or FITS HDU")).
Proof.
  apply (@align_stops_at_first_failure _ _
           (globals (import_module everything_installed)) still_lib
           [Array image_A] (Other "int") [HDU image_B card]
           (Some (Array image_A)) "astroalign"
           [ToNp] image_A [ToNp; AstroalignRegister] [Array image_A]);
    reflexivity.
Defined.

Lemma align_empty_list_any_method_witness :
  align (globals (import_module nothing_installed)) still_lib
    (Many []) (Some (HDU image_A card)) "no such method"
  = ([ToNp], inr (Many [])).
Proof.
  apply (@align_empty_list_any_method _ _
           (globals (import_module nothing_installed)) still_lib
           (Some (HDU image_A card)) "no such method" [ToNp] image_A).
  reflexivity.
Defined.



Lemma align_astroalign_backend_error_witness :
  align (globals (import_module everything_installed)) strict_lib
    (One (Array image_A)) (Some (Array image_B)) "astroalign"
  = ([ToNp; ToNp; AstroalignRegister],
     inl (ValueError
            "Alignment method astroalign is disabled because the astroalign module(s) is/are not installed.")).
Proof.
  apply (@align_astroalign_backend_error _ _ strict_lib everything_installed
           (Array image_A) (Array image_B) image_A image_B
           (NameError "_ransac"));
    reflexivity.
Defined.

Lemma align_skimage_without_scipy_witness :
  align (globals (import_module without_scipy)) still_lib
    (One (Array image_A)) (Some (Array image_B)) "skimage"
  = ([ToNp; ToNp; RegisterTranslation],
     inl (ValueError
            "Alignment method skimage is disabled because the scipy or numpy module(s) is/are not installed.")).
Proof.
  apply (@align_skimage_without_scipy _ _ still_lib without_scipy
           (Array image_A) (Array image_B) image_A image_B [0; 0]);
    reflexivity.
Defined.

Lemma sources_stops_at_first_failure_witness :
  sources (globals (import_module everything_installed)) strict_lib
    ([field_1] ++ field_2 :: [field_1]) None
  = (map (fun _ => FindTransform) [field_1] ++ [FindTransform],
     inl (LibraryError "fewer than 3 points")).
Proof.
  apply (@sources_stops_at_first_failure _ _ strict_lib everything_installed
           [field_1] field_2 [field_1] None field_1
           (LibraryError "fewer than 3 points")).
  - reflexivity.
  - reflexivity.
  - intros c [<- | []]. eexists. reflexivity.
  - reflexivity.
Defined.




Lemma combine_type_error_witness :
  combine still_lib
    (Many ([Array image_A] ++ Other "str" :: [Array image_B])) "numpy"
  = (map (fun _ => ToNp) [Array image_A] ++ [ToNp],
     inl (TypeError "Unexpected type str")).
Proof.
  apply (@combine_type_error _ _ still_lib [Array image_A] [image_A]
           "str" [Array image_B]).
  repeat constructor.
Defined.

(** ** The order of the samples does not matter *)

Lemma Qle_bool_false x y : Qle_bool x y = false -> y < x.
Proof.
  intros H. destruct (Qlt_le_dec y x) as [Hlt | Hle]; [assumption |].
  apply Qle_bool_iff in Hle. congruence.
Qed.

Lemma Forall2_Qeq_refl l : Forall2 Qeq l l.
Proof.
  induction l; constructor; [reflexivity | assumption].
Qed.

Lemma Forall2_Qeq_trans l1 l2 l3 :
  Forall2 Qeq l1 l2 -> Forall2 Qeq l2 l3 -> Forall2 Qeq l1 l3.
Proof.
  intros H. revert l3. induction H as [| x y l1 l2 Hxy _ IH];
    intros l3 H3; inversion H3; subst; constructor.
  - rewrite Hxy. assumption.
  - apply IH. assumption.
Qed.

Lemma insert_sorted_Qeq x l l' :
  Forall2 Qeq l l' ->
  Forall2 Qeq (insert_sorted x l) (insert_sorted x l').
Proof.
  induction 1 as [| y y' l l' Hy Hl IH]; simpl.
  - constructor; [reflexivity | constructor].
  - rewrite Hy. destruct (Qle_bool x y').
    + constructor; [reflexivity |]. constructor; assumption.
    + constructor; [assumption | apply IH].
Qed.

Ltac order_facts :=
  repeat match goal with
         | H : Qle_bool _ _ = true |- _ => apply Qle_bool_iff in H
         | H : Qle_bool _ _ = false |- _ => apply Qle_bool_false in H
         end.

Lemma insert_sorted_swap x y l :
  Forall2 Qeq (insert_sorted x (insert_sorted y l))
              (insert_sorted y (insert_sorted x l)).
Proof.
  induction l as [| z l IH]; simpl.
  - destruct (Qle_bool x y) eqn:Hxy, (Qle_bool y x) eqn:Hyx; order_facts;
      try (exfalso; lra);
      repeat constructor; try reflexivity; lra.
  - destruct (Qle_bool y z) eqn:Hyz, (Qle_bool x z) eqn:Hxz; simpl;
      destruct (Qle_bool x y) eqn:Hxy, (Qle_bool y x) eqn:Hyx; simpl;
      rewrite ?Hyz, ?Hxz; order_facts;
      try (exfalso; lra);
      repeat (constructor; try reflexivity; try lra);
      solve [apply Forall2_Qeq_refl | apply IH].
Qed.

Lemma sort_permutation l l' :
  Permutation l l' -> Forall2 Qeq (sort l) (sort l').
Proof.
  unfold sort. induction 1 as [| x l l' _ IH | x y l | l1 l2 l3 _ IH1 _ IH2];
    simpl.
  - constructor.
  - apply insert_sorted_Qeq, IH.
  - apply insert_sorted_swap.
  - apply Forall2_Qeq_trans with (1 := IH1) (2 := IH2).
Qed.

Lemma nth_Forall2_Qeq l l' k :
  Forall2 Qeq l l' -> nth k l 0 == nth k l' 0.
Proof.
  intros H. revert k. induction H as [| x y l l' Hxy _ IH]; intros [| k];
    simpl; try reflexivity; [assumption | apply IH].
Qed.

Lemma median_permutation l l' :
  Permutation l l' -> median l == median l'.
Proof.
  intros H. unfold median. rewrite !length_sort.
  rewrite <- (Permutation_length H).
  pose proof (sort_permutation H) as Hs.
  destruct (Nat.even (List.length l)).
  - rewrite (nth_Forall2_Qeq (List.length l / 2 - 1) Hs).
    rewrite (nth_Forall2_Qeq (List.length l / 2) Hs). reflexivity.
  - apply nth_Forall2_Qeq, Hs.
Qed.

Lemma pixels_at_permutation i j data data' :
  Permutation data data' ->
  forall xs, pixels_at i j data = Some xs ->
  exists xs', pixels_at i j data' = Some xs' /\ Permutation xs xs'.
Proof.
  induction 1 as [| a l l' _ IH | a b l | l1 l2 l3 _ IH1 _ IH2];
    intros xs Hxs; simpl in *.
  - inversion Hxs. exists []. auto.
  - destruct (pixel a i j) as [x |]; [| discriminate].
    destruct (pixels_at i j l) as [xs0 |]; [| discriminate].
    inversion Hxs; subst. destruct (IH xs0 eq_refl) as (xs' & -> & Hp).
    exists (x :: xs'). auto.
  - destruct (pixel b i j) as [y |]; [| discriminate].
    destruct (pixel a i j) as [x |]; [| discriminate].
    destruct (pixels_at i j l) as [xs0 |]; [| discriminate].
    inversion Hxs; subst. exists (x :: y :: xs0).
    split; [reflexivity | constructor].
  - destruct (IH1 xs Hxs) as (xs2 & H2 & Hp2).
    destruct (IH2 xs2 H2) as (xs3 & H3 & Hp3).
    exists xs3. split; [assumption |].
    apply Permutation_trans with (1 := Hp2) (2 := Hp3).
Qed.



Section CombineOrder.
Context {spectrum transform : Type}.
Variable lib : externals spectrum transform.

Lemma combine_returns_median l data R :
  Forall2 (fun v a => carried v = Some a) l data ->
  result_of (combine lib (Many l) "numpy") = inr (Pixels R) ->
  data <> [] /\ R = median_axis0 data.
Proof.
  intros Hl Hres.
  rewrite combine_numpy in Hres. cbn [as_list] in Hres.
  rewrite (for_each_to_np (to_np_default lib) Hl) in Hres.
  cbn [bind call result_of snd] in Hres.
  destruct data as [| a0 rest]; [discriminate |].
  unfold np_median in Hres.
  destruct (forallb (same_shape a0) rest); [| discriminate].
  inversion Hres. split; [discriminate | reflexivity].
Qed.

(** X19.  The order of the images does not matter: when [combine]
    returns an array for a list of images and for a reordering of that
    list, the two arrays have pixels at the same positions and these
    pixels are numerically equal. *)
Theorem combine_order_irrelevant l l' data R R' i j r :
  Permutation l l' ->
  Forall2 (fun v a => carried v = Some a) l data ->
  result_of (combine lib (Many l) "numpy") = inr (Pixels R) ->
  result_of (combine lib (Many l') "numpy") = inr (Pixels R') ->
  pixel R i j = Some r ->
  exists r', pixel R' i j = Some r' /\ r == r'.
Proof.
  intros Hp Hl HR HR' Hr.
  destruct (Permutation_Forall2 Hp Hl) as (data' & Hpd & Hl').
  destruct (combine_returns_median Hl HR) as [Hne ->].
  destruct (combine_returns_median Hl' HR') as [Hne' ->].
  rewrite pixel_median_axis0 in Hr by assumption.
  rewrite pixel_median_axis0 by assumption.
  destruct (pixels_at i j data) as [xs |] eqn:Hxs; [| discriminate].
  destruct (pixels_at_permutation i j Hpd Hxs) as (xs' & -> & Hpx).
  inversion Hr; subst r. exists (median xs'). split; [reflexivity |].
  apply median_permutation, Hpx.
Qed.


End CombineOrder.

Lemma combine_order_irrelevant_witness :
  exists r', pixel image_A 0 0 = Some r' /\ 1 == r'.
Proof.
  apply (@combine_order_irrelevant _ _ still_lib
           [Array image_A; HDU image_B card; Array image_A]
           [HDU image_B card; Array image_A; Array image_A]
           [image_A; image_B; image_A] image_A image_A 0%nat 0%nat 1).
  - apply perm_swap.
  - repeat constructor.
  - reflexivity.
  - reflexivity.
  - reflexivity.
Defined.

